(** * The axios request-client wrapper of monorepo-vue-starter

    A shallow embedding of [packages/axios/base.ts] (the client factory
    [createApi]) and [packages/axios/index.ts] (the error normalizer
    [handleError], the method facade [createApiClient], the singleton
    [initApiClient] and the lazy [request] handle), followed by the
    properties the specification states about them. *)

From Stdlib Require Import String ZArith List Bool Lia DecimalString.
From ExtLib Require Import Structures.Monad Structures.MonadExc.
Import ListNotations.
Import MonadNotation.
Local Open Scope string_scope.
Local Open Scope list_scope.
Local Open Scope monad_scope.

(** ** JavaScript values

    The wrapper inspects values of type [unknown] at run time, so values are
    modelled dynamically.  Numbers are the integers the client handles (HTTP
    statuses, business codes) plus NaN, which matters for truthiness.  An
    object carries its own properties in order and one bit of its prototype
    chain: whether [instanceof Error] holds. *)
#[warnings="-register-all"]
Inductive JsVal : Type :=
| VUndefined
| VNull
| VBool (b : bool)
| VNum (n : Z)
| VNaN
| VStr (s : string)
| VObj (isError : bool) (props : list (string * JsVal)).

(** ** Completions: a computation returns normally or throws a value.
    An [await] on a rejected promise throws the rejection reason, and an
    [async] function that throws rejects with the thrown value, so the same
    type reads as a settled promise: [Normal] is "resolved", [Throw] is
    "rejected". *)
Inductive Completion (A : Type) : Type :=
| Normal (a : A)
| Throw (e : JsVal).
Arguments Normal {A} a.
Arguments Throw {A} e.

#[export] Instance Monad_Completion : Monad Completion :=
  {| ret := fun _ a => Normal a;
     bind := fun _ _ c k => match c with Normal a => k a | Throw e => Throw e end |}.

(** [try { c } catch (error) { h error }] *)
#[export] Instance Exc_Completion : MonadExc JsVal Completion :=
  {| raise := fun _ e => Throw e;
     catch := fun _ c h => match c with Normal a => Normal a | Throw e => h e end |}.

(** ** Property access *)

Fixpoint lookup (k : string) (props : list (string * JsVal)) : option JsVal :=
  match props with
  | [] => None
  | (k', v) :: rest => if String.eqb k k' then Some v else lookup k rest
  end.

(** The [TypeError] the engine throws for a property read on [null] or
    [undefined]. *)
Definition typeError (what : string) (k : string) : JsVal :=
  VObj true
    [("message",
      VStr (String.append "Cannot read properties of "
             (String.append what
               (String.append " (reading '" (String.append k "')")))))].

(** [v.k].  Reading from [null] or [undefined] throws.  An object answers
    with its own property; an [Error] without an own [message] inherits the
    empty string from [Error.prototype].  The names this program reads
    ([response], [data], [status], [message], [code], [msg]) are defined on no
    primitive wrapper, so a primitive answers [undefined]. *)
Definition getProp (v : JsVal) (k : string) : Completion JsVal :=
  match v with
  | VUndefined => Throw (typeError "undefined" k)
  | VNull => Throw (typeError "null" k)
  | VObj isError props =>
      match lookup k props with
      | Some x => Normal x
      | None => Normal (if isError && String.eqb k "message" then VStr "" else VUndefined)
      end
  | _ => Normal VUndefined
  end.

(** [v?.k] *)
Definition optGet (v : JsVal) (k : string) : Completion JsVal :=
  match v with
  | VUndefined | VNull => Normal VUndefined
  | _ => getProp v k
  end.

(** ToBoolean *)
Definition truthy (v : JsVal) : bool :=
  match v with
  | VUndefined | VNull | VNaN => false
  | VBool b => b
  | VNum n => negb (Z.eqb n 0)
  | VStr s => negb (String.eqb s "")
  | VObj _ _ => true
  end.

(** [a || b] *)
Definition jsOr (a b : JsVal) : JsVal := if truthy a then a else b.

(** [v instanceof Error] *)
Definition instanceofError (v : JsVal) : bool :=
  match v with VObj isError _ => isError | _ => false end.

(** [axios.isAxiosError(v)]: the library tests that [v] is an object whose
    [isAxiosError] property is [true]. *)
Definition isAxiosError (v : JsVal) : bool :=
  match v with
  | VObj _ props =>
      match lookup "isAxiosError" props with
      | Some (VBool true) => true
      | _ => false
      end
  | _ => false
  end.

Definition isString (v : JsVal) : bool :=
  match v with VStr _ => true | _ => false end.

(** [typeof v === 'number'] *)
Definition isNumber (v : JsVal) : bool :=
  match v with VNum _ | VNaN => true | _ => false end.

Definition isNull (v : JsVal) : bool :=
  match v with VNull => true | _ => false end.

(** ** The response envelope [BaseResponse<T>]: [{ data, msg, code }] *)

Definition hasOwn (k : string) (v : JsVal) : bool :=
  match v with
  | VObj _ props => match lookup k props with Some _ => true | None => false end
  | _ => false
  end.

Definition field (k : string) (v : JsVal) : JsVal :=
  match v with
  | VObj _ props => match lookup k props with Some x => x | None => VUndefined end
  | _ => VUndefined
  end.

(** The Envelope shape: an object with a [data] member, a string [msg] and a
    numeric [code]. *)
Definition hasEnvelopeShape (v : JsVal) : bool :=
  hasOwn "data" v && isString (field "msg" v) && isNumber (field "code" v).

(** The envelope of a failure: Envelope shape with [data] equal to [null]. *)
Definition isErrorEnvelope (v : JsVal) : bool :=
  hasEnvelopeShape v && isNull (field "data" v).

(** ** The error normalizer (index.ts, [handleError]) *)

Definition handleError (error : JsVal) : Completion JsVal :=
  if isAxiosError error then
    let axiosError := error in
    response <- getProp axiosError "response" ;;
    body <- optGet response "data" ;;
    if truthy body then
      response <- getProp axiosError "response" ;;
      getProp response "data"
    else
      message <- getProp axiosError "message" ;;
      response <- getProp axiosError "response" ;;
      status <- optGet response "status" ;;
      ret (VObj false
             [("msg", jsOr message (VStr "请求发生错误"));
              ("code", jsOr status (VNum 500));
              ("data", VNull)])
  else if instanceofError error then
    message <- getProp error "message" ;;
    ret (VObj false [("msg", message); ("code", VNum 500); ("data", VNull)])
  else
    ret (VObj false [("msg", VStr "未知错误"); ("code", VNum 500); ("data", VNull)]).

(** The parts of an error the normalizer looks at. *)
Definition responseBody (error : JsVal) : JsVal := field "data" (field "response" error).

Definition responseStatus (error : JsVal) : JsVal := field "status" (field "response" error).

Definition messageOf (error : JsVal) : JsVal :=
  match getProp error "message" with
  | Normal m => m
  | Throw _ => VUndefined
  end.

(** The envelope the normalizer builds itself. *)
Definition synthesized (msg code : JsVal) : JsVal :=
  VObj false [("msg", msg); ("code", code); ("data", VNull)].

(** An own property, when present, has the type its declaration gives it. *)
Definition ownTyped (ok : JsVal -> bool) (k : string) (v : JsVal) : bool :=
  match v with
  | VObj _ props => match lookup k props with Some x => ok x | None => true end
  | _ => true
  end.

(** [AxiosError] declares [message: string] and [response.status: number];
    [Error] declares [message: string].  Values that are neither are
    unconstrained. *)
Definition declaredTypes (error : JsVal) : bool :=
  if isAxiosError error then
    ownTyped isString "message" error && ownTyped isNumber "status" (field "response" error)
  else if instanceofError error then ownTyped isString "message" error
  else true.

(** ** The axios library, as far as the wrapper sees it *)

Inductive Verb : Type := GET | POST | PUT | DELETE | PATCH.

(** [AxiosResponse<T>]: the wrapper reads [status] and [data] only. *)
Record AxiosResponse : Type := { status : Z; data : JsVal }.

(** A response as a JavaScript object, the way an [AxiosError] carries it. *)
Definition responseObject (response : AxiosResponse) : JsVal :=
  VObj false [("status", VNum (status response)); ("data", data response)].

(** An [AxiosError]: an [Error] marked [isAxiosError], with its message and,
    when the server answered, the response (the wrapper reads no other
    member). *)
Definition AxiosError (message : string) (response : option AxiosResponse) : JsVal :=
  VObj true
    ([("isAxiosError", VBool true); ("message", VStr message)]
       ++ match response with
          | Some r => [("response", responseObject r)]
          | None => []
          end).

(** [new Error(message)] *)
Definition newError (message : string) : JsVal :=
  VObj true [("message", VStr message)].

(** A caller-supplied [() => void] callback is opaque to the client: it is
    known by a name, running it is an event, and (as its type says) it
    returns normally. *)
Definition Callback : Type := string.

Inductive Event : Type :=
| Called (f : Callback)
| ConsoleWarn (message : string).

Definition Trace : Type := list Event.

(** A computation that may run callbacks or log before it returns or throws. *)
Definition Effectful (A : Type) : Type := Trace -> Completion A * Trace.

Fixpoint calls (f : Callback) (t : Trace) : nat :=
  match t with
  | [] => 0
  | Called g :: rest => (if String.eqb f g then 1 else 0) + calls f rest
  | ConsoleWarn _ :: rest => calls f rest
  end.

(** [CreateApiOptions] (base.ts).  [getToken] is [() => string | null]: an
    accessor that returns a token or [null] ([None]). *)
Record CreateApiOptions : Type := {
  baseURL : string;
  getToken : option (unit -> option string);
  onUnauthorized : option Callback
}.

(** [CreateAxiosDefaults], the members [createApi] sets.  [paramsSerializer]
    is [qs.stringify] with the recorded [arrayFormat]. *)
Record CreateAxiosDefaults : Type := {
  defaults_baseURL : string;
  headers : list (string * string);
  timeout : Z;
  paramsSerializer_arrayFormat : string
}.

(** The options object handed to [axiosRetry]. *)
Record IAxiosRetryConfig : Type := {
  retries : nat;
  retryDelay : Z -> Z;
  retryCondition : JsVal -> bool
}.

(** One [interceptors.response.use(onFulfilled, onRejected)] registration. *)
Record ResponseInterceptor : Type := {
  onFulfilled : AxiosResponse -> Effectful AxiosResponse;
  onRejected : JsVal -> Effectful AxiosResponse
}.

(** An [AxiosInstance] as configured data: its defaults, the retry options
    attached to it and its response interceptors in registration order. *)
Record AxiosInstance : Type := {
  defaults : CreateAxiosDefaults;
  retryOptions : option IAxiosRetryConfig;
  responseInterceptors : list ResponseInterceptor
}.

(** A template literal's rendering of a [string | null] value. *)
Definition templateString (v : option string) : string :=
  match v with
  | Some s => s
  | None => "null"
  end.

(** [v === n] for a number literal [n] *)
Definition strictEqNum (v : JsVal) (n : Z) : bool :=
  match v with
  | VNum m => Z.eqb m n
  | _ => false
  end.

(** [axios.create(config)]: a fresh instance with no retry and no interceptor. *)
Definition axios_create (config : CreateAxiosDefaults) : AxiosInstance :=
  {| defaults := config; retryOptions := None; responseInterceptors := [] |}.

(** [axiosRetry(api, retryConfig)] attaches the retry options to the
    instance; the interceptors the library installs for itself to carry the
    retries out are stood for by these options. *)
Definition axiosRetry (api : AxiosInstance) (retryConfig : IAxiosRetryConfig) : AxiosInstance :=
  {| defaults := defaults api;
     retryOptions := Some retryConfig;
     responseInterceptors := responseInterceptors api |}.

(** [api.interceptors.response.use(f, g)] registers after those present. *)
Definition interceptors_response_use (api : AxiosInstance)
    (f : AxiosResponse -> Effectful AxiosResponse)
    (g : JsVal -> Effectful AxiosResponse) : AxiosInstance :=
  {| defaults := defaults api;
     retryOptions := retryOptions api;
     responseInterceptors :=
       responseInterceptors api ++ [{| onFulfilled := f; onRejected := g |}] |}.

(** The library's default [validateStatus], which [createApi] leaves in place:
    a response resolves the request when its status is 2xx. *)
Definition validateStatus (s : Z) : bool := (200 <=? s)%Z && (s <? 300)%Z.

(** The library's [settle] ([!response.status || validateStatus(status)]): a
    response whose status is 0 or accepted fulfils the request; any other is
    delivered as a rejection with an [AxiosError] that carries the response. *)
Definition settle (response : AxiosResponse) : Completion AxiosResponse :=
  if Z.eqb (status response) 0 || validateStatus (status response) then Normal response
  else Throw (AxiosError
                (String.append "Request failed with status code "
                   (NilZero.string_of_int (Z.to_int (status response))))
                (Some response)).

(** The response interceptors form a promise chain: each registration's
    [onFulfilled] receives a fulfilled value and its [onRejected] a rejection,
    and what it returns or throws settles the next link. *)
Fixpoint runResponseInterceptors (chain : list ResponseInterceptor)
    (settled : Completion AxiosResponse) : Effectful AxiosResponse :=
  fun t =>
    match chain with
    | [] => (settled, t)
    | i :: rest =>
        let (next, t') :=
          match settled with
          | Normal response => onFulfilled i response t
          | Throw error => onRejected i error t
          end in
        runResponseInterceptors rest next t'
    end.

(** One request through an instance to which the retry options were attached
    before any response interceptor was registered, as [createApi] does: the
    interceptor of axios-retry heads the chain.  [tries k] is the settled
    outcome of the try made after [k] retries.  The retry interceptor lets a
    fulfilled try through; for a rejection that the retry condition accepts,
    with retries left, it answers with a new request through the instance,
    which runs the whole chain again.  The interceptors registered after it
    then see the outcome of that inner request as well. *)
Fixpoint requestLoop (api : AxiosInstance) (cfg : IAxiosRetryConfig)
    (remaining retryCount : nat) (tries : nat -> Completion AxiosResponse)
  : Effectful AxiosResponse :=
  fun t =>
    let (settled, t') :=
      match tries retryCount with
      | Normal response => (Normal response, t)
      | Throw error =>
          match remaining with
          | O => (Throw error, t)
          | S remaining' =>
              if retryCondition cfg error
              then requestLoop api cfg remaining' (S retryCount) tries t
              else (Throw error, t)
          end
      end in
    runResponseInterceptors (responseInterceptors api) settled t'.

(** [api.request(config)] and the verb methods built on it. *)
Definition axios_request (api : AxiosInstance) (tries : nat -> Completion AxiosResponse)
  : Effectful AxiosResponse :=
  match retryOptions api with
  | Some cfg => requestLoop api cfg (retries cfg) 0 tries
  | None => runResponseInterceptors (responseInterceptors api) (tries 0%nat)
  end.

(** What the caller of the instance observes when the server answers every
    try of a request with [response]. *)
Definition deliver (api : AxiosInstance) (response : AxiosResponse) : Effectful AxiosResponse :=
  axios_request api (fun _ => settle response).

(** Modelled from the spec: the retry driver is the axios-retry library's and
    is not part of this repository.  Sections 4.1 and 8 give its contract: a
    failed try is repeated when the retry condition accepts the error and
    retries remain, the delay before retry number [n] is [retryDelay n], and
    the last outcome is surfaced.  [tries k] is the outcome of the try made
    after [k] retries; the result holds the surfaced outcome and the delays
    waited, in order (so the number of tries is one more than their number). *)
Fixpoint retryLoop (cfg : IAxiosRetryConfig) (remaining : nat) (retryCount : nat)
    (tries : nat -> Completion AxiosResponse) : Completion AxiosResponse * list Z :=
  match tries retryCount with
  | Normal response => (Normal response, [])
  | Throw error =>
      match remaining with
      | O => (Throw error, [])
      | S remaining' =>
          if retryCondition cfg error then
            let (outcome, delays) := retryLoop cfg remaining' (S retryCount) tries in
            (outcome, retryDelay cfg (Z.of_nat (S retryCount)) :: delays)
          else (Throw error, [])
      end
  end.

(** A request sent through an instance: retried as its retry options say. *)
Definition sendWithRetry (api : AxiosInstance) (tries : nat -> Completion AxiosResponse)
  : Completion AxiosResponse * list Z :=
  match retryOptions api with
  | Some cfg => retryLoop cfg (retries cfg) 0 tries
  | None => (tries 0%nat, [])
  end.

(** What the Envelope shape of a facade result rests on, the facade checking
    nothing itself: the body the server sent (with a success, or with an axios
    error that carries a truthy body), and otherwise the declared types of
    the error. *)
Definition shapeRelied (outcome : Completion AxiosResponse) : bool :=
  match outcome with
  | Normal response => hasEnvelopeShape (data response)
  | Throw error =>
      if isAxiosError error && truthy (responseBody error)
      then hasEnvelopeShape (responseBody error)
      else declaredTypes error
  end.

(** [response.data.code], as the response interceptor reads it. *)
Definition bodyCode (response : AxiosResponse) : Completion JsVal :=
  getProp (data response) "code".

(** The members of the object [createApiClient] returns.  [get] and [delete]
    take [(url, config)]; [post], [put] and [patch] take [(url, data, config)].
    An omitted argument is [undefined]. *)
Record WithoutBaseResponse : Type := {
  raw_get : string -> JsVal -> Completion JsVal;
  raw_post : string -> JsVal -> JsVal -> Completion JsVal;
  raw_put : string -> JsVal -> JsVal -> Completion JsVal;
  raw_delete : string -> JsVal -> Completion JsVal;
  raw_patch : string -> JsVal -> JsVal -> Completion JsVal
}.

Record ApiClient : Type := {
  client_get : string -> JsVal -> Completion JsVal;
  client_post : string -> JsVal -> JsVal -> Completion JsVal;
  client_put : string -> JsVal -> JsVal -> Completion JsVal;
  client_delete : string -> JsVal -> Completion JsVal;
  client_patch : string -> JsVal -> JsVal -> Completion JsVal;
  withoutBaseResponse : WithoutBaseResponse
}.

(** What a property read on the client object yields. *)
Inductive Member : Type :=
| MethodUrlConfig (f : string -> JsVal -> Completion JsVal)
| MethodUrlDataConfig (f : string -> JsVal -> JsVal -> Completion JsVal)
| Namespace (ns : WithoutBaseResponse)
| NotOwn.

(** [Reflect.get(client, prop)]: the own member of that name; [NotOwn] stands
    for what the prototype chain answers for any other name ([undefined] or
    a member of [Object.prototype]).  It never throws. *)
Definition Reflect_get (client : ApiClient) (prop : string) : Member :=
  if String.eqb prop "get" then MethodUrlConfig (client_get client)
  else if String.eqb prop "post" then MethodUrlDataConfig (client_post client)
  else if String.eqb prop "put" then MethodUrlDataConfig (client_put client)
  else if String.eqb prop "delete" then MethodUrlConfig (client_delete client)
  else if String.eqb prop "patch" then MethodUrlDataConfig (client_patch client)
  else if String.eqb prop "withoutBaseResponse" then Namespace (withoutBaseResponse client)
  else NotOwn.

(** The event of [console.warn('API client has already been initialized.')]. *)
Definition alreadyInitialized : Event :=
  ConsoleWarn "API client has already been initialized.".

(** ** Sample values *)

(** [{ code: 401, msg: "unauthorized", data: null }] *)
Definition unauthorizedBody : JsVal :=
  VObj false [("code", VNum 401); ("msg", VStr "unauthorized"); ("data", VNull)].

(** A server error envelope whose [data] is not [null]. *)
Definition tokenExpiredBody : JsVal :=
  VObj false
    [("data", VObj false [("reason", VStr "expired")]);
     ("msg", VStr "token expired");
     ("code", VNum 401)].

(** A gateway's answer: status 502 with a text body. *)
Definition badGateway : AxiosResponse := {| status := 502; data := VStr "Bad Gateway" |}.

(** A plain-text answer with status 200. *)
Definition pong : AxiosResponse := {| status := 200; data := VStr "pong" |}.

(** The connection was refused: an axios error without a response. *)
Definition networkDown : JsVal := AxiosError "Network Error" None.

Definition sampleOptions : CreateApiOptions :=
  {| baseURL := "https://api.example.com";
     getToken := None;
     onUnauthorized := Some "logout" |}.

(** Classifiers for the samples: an axios error that carries no response is
    network-class; no failure counts as an idempotent-method failure. *)
Definition withoutResponse (error : JsVal) : bool :=
  isAxiosError error && negb (hasOwn "response" error).

Definition never (error : JsVal) : bool := false.

(** An instance whose every call settles to [outcome]. *)
Definition always (outcome : Completion AxiosResponse)
  : AxiosInstance -> Verb -> string -> JsVal -> JsVal -> Completion AxiosResponse :=
  fun _ _ _ _ _ => outcome.

Section Client.

(** The two classifiers of axios-retry: a network-class error (no response
    was received) and a failure of a request with an idempotent method. *)
Variable isNetworkError : JsVal -> bool.
Variable isIdempotentRequestError : JsVal -> bool.

(** What one call of an instance method [api.<verb>(url, data, config)]
    settles to: the library and the network decide it. *)
Variable dispatch : AxiosInstance -> Verb -> string -> JsVal -> JsVal -> Completion AxiosResponse.

(** Modelled from the spec: [axiosRetry.isNetworkOrIdempotentRequestError]
    belongs to the axios-retry library; section 4.1 describes it as
    "network-class errors or idempotent-method failures". *)
Definition isNetworkOrIdempotentRequestError (error : JsVal) : bool :=
  isNetworkError error || isIdempotentRequestError error.

(** ** The client factory (base.ts, [createApi]) *)

Definition createApi (options : CreateApiOptions) : AxiosInstance :=
  let headers :=
    ("Content-Type", "application/json")
      :: match getToken options with
         | Some getToken => [("Authorization", String.append "Bearer " (templateString (getToken tt)))]
         | None => []
         end in
  let axiosConfig :=
    {| defaults_baseURL := baseURL options;
       headers := headers;
       timeout := 10000;
       paramsSerializer_arrayFormat := "brackets" |} in
  let api := axios_create axiosConfig in
  let api :=
    axiosRetry api
      {| retries := 3;
         retryDelay := fun retryCount => (retryCount * 1000)%Z;
         retryCondition := fun error => isNetworkOrIdempotentRequestError error |} in
  let api :=
    interceptors_response_use api
      (fun response t =>
         match getProp (data response) "code" with
         | Throw e => (Throw e, t)
         | Normal code =>
             if strictEqNum code 401 then
               match onUnauthorized options with
               | Some hook => (Normal response, t ++ [Called hook])
               | None => (Normal response, t)
               end
             else (Normal response, t)
         end)
      (fun error t => (Throw error, t)) in
  api.

(** ** The method facade (index.ts, [createApiClient]) *)

Definition get (api : AxiosInstance) (url : string) (config : JsVal) : Completion JsVal :=
  catch (response <- dispatch api GET url VUndefined config ;;
         ret (data response))
        (fun error => handleError error).

Definition getWithoutBaseResponse (api : AxiosInstance) (url : string) (config : JsVal)
  : Completion JsVal :=
  response <- dispatch api GET url VUndefined config ;;
  ret (data response).

Definition post (api : AxiosInstance) (url : string) (body config : JsVal) : Completion JsVal :=
  catch (response <- dispatch api POST url body config ;;
         ret (data response))
        (fun error => handleError error).

Definition postWithoutBaseResponse (api : AxiosInstance) (url : string) (body config : JsVal)
  : Completion JsVal :=
  response <- dispatch api POST url body config ;;
  ret (data response).

Definition put (api : AxiosInstance) (url : string) (body config : JsVal) : Completion JsVal :=
  catch (response <- dispatch api PUT url body config ;;
         ret (data response))
        (fun error => handleError error).

Definition putWithoutBaseResponse (api : AxiosInstance) (url : string) (body config : JsVal)
  : Completion JsVal :=
  response <- dispatch api PUT url body config ;;
  ret (data response).

Definition delete (api : AxiosInstance) (url : string) (config : JsVal) : Completion JsVal :=
  catch (response <- dispatch api DELETE url VUndefined config ;;
         ret (data response))
        (fun error => handleError error).

Definition deleteWithoutBaseResponse (api : AxiosInstance) (url : string) (config : JsVal)
  : Completion JsVal :=
  response <- dispatch api DELETE url VUndefined config ;;
  ret (data response).

Definition patch (api : AxiosInstance) (url : string) (body config : JsVal) : Completion JsVal :=
  catch (response <- dispatch api PATCH url body config ;;
         ret (data response))
        (fun error => handleError error).

Definition patchWithoutBaseResponse (api : AxiosInstance) (url : string) (body config : JsVal)
  : Completion JsVal :=
  response <- dispatch api PATCH url body config ;;
  ret (data response).

Definition createApiClient (api : AxiosInstance) : ApiClient :=
  {| client_get := get api;
     client_post := post api;
     client_put := put api;
     client_delete := delete api;
     client_patch := patch api;
     withoutBaseResponse :=
       {| raw_get := getWithoutBaseResponse api;
          raw_post := postWithoutBaseResponse api;
          raw_put := putWithoutBaseResponse api;
          raw_delete := deleteWithoutBaseResponse api;
          raw_patch := patchWithoutBaseResponse api |} |}.

(** One call of a facade method by verb, with the argument list of that
    verb ([get] and [delete] pass no request body). *)
Definition enveloped (client : ApiClient) (verb : Verb) (url : string) (body config : JsVal)
  : Completion JsVal :=
  match verb with
  | GET => client_get client url config
  | POST => client_post client url body config
  | PUT => client_put client url body config
  | DELETE => client_delete client url config
  | PATCH => client_patch client url body config
  end.

Definition raw (client : ApiClient) (verb : Verb) (url : string) (body config : JsVal)
  : Completion JsVal :=
  match verb with
  | GET => raw_get (withoutBaseResponse client) url config
  | POST => raw_post (withoutBaseResponse client) url body config
  | PUT => raw_put (withoutBaseResponse client) url body config
  | DELETE => raw_delete (withoutBaseResponse client) url config
  | PATCH => raw_patch (withoutBaseResponse client) url body config
  end.

(** The request body the instance method of a verb receives. *)
Definition sentBody (verb : Verb) (body : JsVal) : JsVal :=
  match verb with
  | GET | DELETE => VUndefined
  | POST | PUT | PATCH => body
  end.

(** ** The singleton (index.ts)

    The module variable [apiClientInstance] is the state; [null] is [None].
    [console.warn] is an event of the trace. *)

Definition initApiClient (options : CreateApiOptions)
    (apiClientInstance : option ApiClient) (t : Trace) : option ApiClient * Trace :=
  match apiClientInstance with
  | Some _ => (apiClientInstance, t ++ [ConsoleWarn "API client has already been initialized."])
  | None =>
      let api := createApi options in
      (Some (createApiClient api), t)
  end.

Definition notInitialized : JsVal :=
  newError "API client has not been initialized. Please call initApiClient() first.".

(** The [get] trap of the [request] proxy: it reads the module variable and
    leaves it as it is. *)
Definition request_get (prop : string) (apiClientInstance : option ApiClient)
  : Completion Member * option ApiClient :=
  match apiClientInstance with
  | None => (Throw notInitialized, apiClientInstance)
  | Some client => (Normal (Reflect_get client prop), apiClientInstance)
  end.

(** Successive property reads on [request], one per element of [props]. *)
Fixpoint accessAll (props : list string) (apiClientInstance : option ApiClient)
  : list (Completion Member) * option ApiClient :=
  match props with
  | [] => ([], apiClientInstance)
  | prop :: rest =>
      let (result, instance') := request_get prop apiClientInstance in
      let (results, instance'') := accessAll rest instance' in
      (result :: results, instance'')
  end.

(** Successive calls of [initApiClient], one per element of [optionss]. *)
Fixpoint initAll (optionss : list CreateApiOptions)
    (apiClientInstance : option ApiClient) (t : Trace) : option ApiClient * Trace :=
  match optionss with
  | [] => (apiClientInstance, t)
  | options :: rest =>
      let (instance', t') := initApiClient options apiClientInstance t in
      initAll rest instance' t'
  end.

(** ** The object [createApiClient] builds, property by property

    The record [ApiClient] above names the members of the returned object;
    the definitions below follow the way the source obtains them: the
    [methods] literal with its ten functions, the rest destructuring that
    takes the five [...WithoutBaseResponse] functions out, and the returned
    literal that spreads [rest] and adds [withoutBaseResponse]. *)

Fixpoint member (k : string) (obj : list (string * Member)) : option Member :=
  match obj with
  | [] => None
  | (k', m) :: rest => if String.eqb k k' then Some m else member k rest
  end.

(** The [methods] literal, in source order. *)
Definition methods (api : AxiosInstance) : list (string * Member) :=
  [("get", MethodUrlConfig (get api));
   ("getWithoutBaseResponse", MethodUrlConfig (getWithoutBaseResponse api));
   ("post", MethodUrlDataConfig (post api));
   ("postWithoutBaseResponse", MethodUrlDataConfig (postWithoutBaseResponse api));
   ("put", MethodUrlDataConfig (put api));
   ("putWithoutBaseResponse", MethodUrlDataConfig (putWithoutBaseResponse api));
   ("delete", MethodUrlConfig (delete api));
   ("deleteWithoutBaseResponse", MethodUrlConfig (deleteWithoutBaseResponse api));
   ("patch", MethodUrlDataConfig (patch api));
   ("patchWithoutBaseResponse", MethodUrlDataConfig (patchWithoutBaseResponse api))].

(** [const { k1, ..., kn, ...rest } = obj]: [rest] keeps, in order, the
    properties of [obj] that are not named. *)
Definition restOf (named : list string) (obj : list (string * Member))
  : list (string * Member) :=
  filter (fun kv => negb (existsb (String.eqb (fst kv)) named)) obj.

(** [{ ...rest, withoutBaseResponse: { ... } }] *)
Definition clientObject (api : AxiosInstance) : list (string * Member) :=
  restOf ["getWithoutBaseResponse"; "postWithoutBaseResponse"; "putWithoutBaseResponse";
          "deleteWithoutBaseResponse"; "patchWithoutBaseResponse"]
         (methods api)
    ++ [("withoutBaseResponse", Namespace (withoutBaseResponse (createApiClient api)))].

(** * Properties *)

(** ** Property access *)

Lemma optGet_field (v : JsVal) (k : string) :
  String.eqb k "message" = false -> optGet v k = Normal (field k v).
Proof.
  intros Hk. destruct v as [| | b | n | | s | isError props]; try reflexivity.
  simpl. rewrite Hk, andb_false_r. destruct (lookup k props); reflexivity.
Qed.

Lemma getProp_object (isError : bool) (props : list (string * JsVal)) (k : string) :
  String.eqb k "message" = false ->
  getProp (VObj isError props) k = Normal (field k (VObj isError props)).
Proof.
  intros Hk. simpl. rewrite Hk, andb_false_r. destruct (lookup k props); reflexivity.
Qed.

Lemma getProp_message_object (isError : bool) (props : list (string * JsVal)) :
  getProp (VObj isError props) "message" = Normal (messageOf (VObj isError props)).
Proof.
  unfold messageOf. simpl. destruct (lookup "message" props); reflexivity.
Qed.

Lemma truthy_not_nullish (v : JsVal) (k : string) :
  String.eqb k "message" = false ->
  truthy (field k v) = true -> getProp v k = Normal (field k v).
Proof.
  intros Hk Ht. destruct v as [| | b | n | | s | isError props];
    try (simpl in Ht; discriminate).
  apply getProp_object, Hk.
Qed.

Lemma isAxiosError_object (error : JsVal) :
  isAxiosError error = true -> exists isError props, error = VObj isError props.
Proof.
  destruct error as [| | b | n | | s | isError props]; try discriminate.
  intros _. exists isError, props. reflexivity.
Qed.

Lemma instanceofError_object (error : JsVal) :
  instanceofError error = true -> exists props, error = VObj true props.
Proof.
  destruct error as [| | b | n | | s | isError props]; try discriminate.
  simpl. intros ->. exists props. reflexivity.
Qed.

(** ** The error normalizer, branch by branch *)

Lemma handleError_axios_body (error : JsVal) :
  isAxiosError error = true ->
  truthy (responseBody error) = true ->
  handleError error = Normal (responseBody error).
Proof.
  intros Hax Hbody. unfold handleError. rewrite Hax.
  destruct (isAxiosError_object error Hax) as (isError & props & ->).
  cbn [bind Monad_Completion].
  rewrite (getProp_object isError props "response" eq_refl).
  rewrite (optGet_field _ "data" eq_refl).
  fold (responseBody (VObj isError props)). rewrite Hbody.
  rewrite (truthy_not_nullish _ "data" eq_refl Hbody). reflexivity.
Qed.

Lemma handleError_axios_no_body (error : JsVal) :
  isAxiosError error = true ->
  truthy (responseBody error) = false ->
  handleError error =
  Normal (synthesized (jsOr (messageOf error) (VStr "请求发生错误"))
                      (jsOr (responseStatus error) (VNum 500))).
Proof.
  intros Hax Hbody. unfold handleError. rewrite Hax.
  destruct (isAxiosError_object error Hax) as (isError & props & ->).
  cbn [bind Monad_Completion].
  rewrite (getProp_object isError props "response" eq_refl).
  rewrite (optGet_field _ "data" eq_refl).
  fold (responseBody (VObj isError props)). rewrite Hbody.
  rewrite getProp_message_object.
  rewrite (optGet_field _ "status" eq_refl). reflexivity.
Qed.

Lemma handleError_generic (error : JsVal) :
  isAxiosError error = false ->
  instanceofError error = true ->
  handleError error = Normal (synthesized (messageOf error) (VNum 500)).
Proof.
  intros Hax Herr. unfold handleError. rewrite Hax, Herr.
  destruct (instanceofError_object error Herr) as (props & ->).
  cbn [bind Monad_Completion]. rewrite getProp_message_object. reflexivity.
Qed.

Lemma handleError_unknown (error : JsVal) :
  isAxiosError error = false ->
  instanceofError error = false ->
  handleError error = Normal (synthesized (VStr "未知错误") (VNum 500)).
Proof.
  intros Hax Herr. unfold handleError. rewrite Hax, Herr. reflexivity.
Qed.

Lemma handleError_returns (error : JsVal) : exists v, handleError error = Normal v.
Proof.
  destruct (isAxiosError error) eqn:Hax.
  - destruct (truthy (responseBody error)) eqn:Hbody.
    + eexists. apply handleError_axios_body; assumption.
    + eexists. apply handleError_axios_no_body; assumption.
  - destruct (instanceofError error) eqn:Herr.
    + eexists. apply handleError_generic; assumption.
    + eexists. apply handleError_unknown; assumption.
Qed.

Lemma synthesized_is_error_envelope (msg code : JsVal) :
  isString msg = true -> isNumber code = true ->
  isErrorEnvelope (synthesized msg code) = true.
Proof.
  intros Hmsg Hcode. unfold isErrorEnvelope, hasEnvelopeShape. simpl.
  rewrite Hmsg, Hcode. reflexivity.
Qed.

Lemma jsOr_string (m : JsVal) (fallback : string) :
  isString m = true \/ m = VUndefined -> isString (jsOr m (VStr fallback)) = true.
Proof.
  unfold jsOr. intros [Hm | ->]; [| reflexivity].
  destruct (truthy m); [assumption | reflexivity].
Qed.

Lemma jsOr_number (c : JsVal) (fallback : Z) :
  isNumber c = true \/ c = VUndefined -> isNumber (jsOr c (VNum fallback)) = true.
Proof.
  unfold jsOr. intros [Hc | ->]; [| reflexivity].
  destruct (truthy c); [assumption | reflexivity].
Qed.

Lemma ownTyped_message (error : JsVal) :
  ownTyped isString "message" error = true ->
  isString (messageOf error) = true \/ messageOf error = VUndefined.
Proof.
  destruct error as [| | b | n | | s | isError props]; try (right; reflexivity).
  unfold ownTyped, messageOf. simpl.
  destruct (lookup "message" props) as [x |].
  - intros Hx. left. exact Hx.
  - intros _. destruct isError; [left | right]; reflexivity.
Qed.

Lemma ownTyped_field (ok : JsVal -> bool) (k : string) (v : JsVal) :
  ownTyped ok k v = true -> ok (field k v) = true \/ field k v = VUndefined.
Proof.
  destruct v as [| | b | n | | s | isError props]; try (right; reflexivity).
  unfold ownTyped, field. destruct (lookup k props) as [x |].
  - intros Hx. left. exact Hx.
  - right. reflexivity.
Qed.

Lemma handleError_body_verbatim (error v : JsVal) :
  handleError error = Normal v ->
  isAxiosError error && truthy (responseBody error) = true ->
  v = responseBody error.
Proof.
  intros Hv Hcase. apply andb_true_iff in Hcase as [Hax Hbody].
  rewrite (handleError_axios_body error Hax Hbody) in Hv. congruence.
Qed.

Lemma handleError_builds_envelope (error v : JsVal) :
  handleError error = Normal v ->
  isAxiosError error && truthy (responseBody error) = false ->
  declaredTypes error = true ->
  isErrorEnvelope v = true.
Proof.
  unfold declaredTypes. intros Hv Hcase Htyped.
  destruct (isAxiosError error) eqn:Hax; cbn [andb] in Hcase.
  - rewrite (handleError_axios_no_body error Hax Hcase) in Hv. injection Hv as <-.
    apply andb_true_iff in Htyped as [Hm Hs].
    apply synthesized_is_error_envelope.
    + apply jsOr_string, ownTyped_message, Hm.
    + apply jsOr_number. unfold responseStatus. apply (ownTyped_field isNumber), Hs.
  - destruct (instanceofError error) eqn:Herr.
    + rewrite (handleError_generic error Hax Herr) in Hv. injection Hv as <-.
      apply synthesized_is_error_envelope; [| reflexivity].
      destruct (instanceofError_object error Herr) as (props & ->).
      unfold ownTyped in Htyped. unfold messageOf. simpl.
      destruct (lookup "message" props); [assumption | reflexivity].
    + rewrite (handleError_unknown error Hax Herr) in Hv. injection Hv as <-. reflexivity.
Qed.

Lemma hasEnvelopeShape_truthy (v : JsVal) : hasEnvelopeShape v = true -> truthy v = true.
Proof.
  destruct v as [| | b | n | | s | isError props]; try discriminate. reflexivity.
Qed.

(** C2 (as amended). [handleError] returns for every input and never throws.
    For an axios error whose response body has the Envelope shape the result
    is that body itself, with the [data] the server sent; for every input
    that is no axios error with a truthy body, with [message] and
    [response.status] of their declared types, the result is an envelope with
    [data] equal to [null], a string [msg] and a numeric [code]. *)
Theorem handleError_total_envelope (error : JsVal) :
  exists v,
    handleError error = Normal v /\
    (isAxiosError error = true -> hasEnvelopeShape (responseBody error) = true ->
     v = responseBody error /\ hasEnvelopeShape v = true) /\
    (isAxiosError error && truthy (responseBody error) = false ->
     declaredTypes error = true -> isErrorEnvelope v = true).
Proof.
  destruct (handleError_returns error) as [v Hv]. exists v.
  split; [exact Hv | split].
  - intros Hax Hshape.
    assert (Hv' : v = responseBody error).
    { apply (handleError_body_verbatim error v Hv).
      rewrite Hax, (hasEnvelopeShape_truthy _ Hshape). reflexivity. }
    split; [exact Hv' | rewrite Hv'; exact Hshape].
  - apply handleError_builds_envelope, Hv.
Qed.

(** ** The method facade *)

(** Each enveloped method is the same [try]/[catch] around the instance
    method of its verb. *)
Lemma enveloped_unfold (api : AxiosInstance) (verb : Verb) (url : string) (body config : JsVal) :
  enveloped (createApiClient api) verb url body config =
  match dispatch api verb url (sentBody verb body) config with
  | Normal response => Normal (data response)
  | Throw error => handleError error
  end.
Proof.
  destruct verb; cbn [enveloped createApiClient client_get client_post client_put
                      client_delete client_patch sentBody];
    unfold get, post, put, delete, patch; cbn [catch Exc_Completion bind ret Monad_Completion];
    match goal with |- context [dispatch ?a ?v ?u ?b ?c] => destruct (dispatch a v u b c) end;
    reflexivity.
Qed.

Lemma isErrorEnvelope_shape (v : JsVal) :
  isErrorEnvelope v = true -> hasEnvelopeShape v = true.
Proof. unfold isErrorEnvelope. intros H. apply andb_true_iff in H as [H _]. exact H. Qed.

(** C1 (as amended). For every verb and every outcome of the instance call,
    the enveloped method resolves and never rejects: with the response body
    when the call succeeds, with the result of [handleError] when it fails.
    Nothing is validated, so the result has the Envelope shape when what it
    is taken from has it: the body the server sent or, for a failure without
    a body, an error of the declared types. *)
Theorem enveloped_never_rejects (api : AxiosInstance) (verb : Verb) (url : string)
    (body config : JsVal) :
  exists v,
    enveloped (createApiClient api) verb url body config = Normal v /\
    match dispatch api verb url (sentBody verb body) config with
    | Normal response => v = data response
    | Throw error => handleError error = Normal v
    end /\
    (shapeRelied (dispatch api verb url (sentBody verb body) config) = true ->
     hasEnvelopeShape v = true).
Proof.
  rewrite enveloped_unfold.
  destruct (dispatch api verb url (sentBody verb body) config) as [response | error];
    cbn [shapeRelied].
  - exists (data response). split; [reflexivity | split; [reflexivity |]].
    intros Hshape. exact Hshape.
  - destruct (handleError_returns error) as [v Hv]. exists v.
    split; [exact Hv | split; [exact Hv |]].
    destruct (isAxiosError error && truthy (responseBody error)) eqn:Hcase; intros Hshape.
    + rewrite (handleError_body_verbatim error v Hv Hcase). exact Hshape.
    + apply isErrorEnvelope_shape.
      exact (handleError_builds_envelope error v Hv Hcase Hshape).
Qed.

(** C9. For every verb, the raw method under [withoutBaseResponse] returns
    [response.data] when the instance call succeeds and rejects with the
    very error of the instance call when it fails. *)
Theorem raw_propagates (api : AxiosInstance) (verb : Verb) (url : string) (body config : JsVal) :
  raw (createApiClient api) verb url body config =
  match dispatch api verb url (sentBody verb body) config with
  | Normal response => Normal (data response)
  | Throw error => Throw error
  end.
Proof.
  destruct verb; cbn [raw createApiClient withoutBaseResponse raw_get raw_post raw_put
                      raw_delete raw_patch sentBody];
    unfold getWithoutBaseResponse, postWithoutBaseResponse, putWithoutBaseResponse,
      deleteWithoutBaseResponse, patchWithoutBaseResponse;
    cbn [bind ret Monad_Completion];
    match goal with |- context [dispatch ?a ?v ?u ?b ?c] => destruct (dispatch a v u b c) end;
    reflexivity.
Qed.

(** C10. On every successful instance call the enveloped method returns the
    response body as it is, whatever its shape. *)
Theorem enveloped_returns_body_unvalidated (api : AxiosInstance) (verb : Verb) (url : string)
    (body config : JsVal) (response : AxiosResponse) :
  dispatch api verb url (sentBody verb body) config = Normal response ->
  enveloped (createApiClient api) verb url body config = Normal (data response).
Proof.
  intros Hok. rewrite enveloped_unfold, Hok. reflexivity.
Qed.

(** ** The client factory *)

Lemma createApi_headers (options : CreateApiOptions) :
  headers (defaults (createApi options)) =
  ("Content-Type", "application/json")
    :: match getToken options with
       | Some getToken => [("Authorization", String.append "Bearer " (templateString (getToken tt)))]
       | None => []
       end.
Proof. reflexivity. Qed.

Lemma createApi_content_type (options : CreateApiOptions) :
  In ("Content-Type", "application/json") (headers (defaults (createApi options))).
Proof. rewrite createApi_headers. left. reflexivity. Qed.

(** The [Authorization] header is there exactly when [getToken] is supplied:
    the value [getToken] returns is not looked at. *)
Lemma createApi_authorization_iff (options : CreateApiOptions) :
  In "Authorization" (map fst (headers (defaults (createApi options)))) <->
  getToken options <> None.
Proof.
  rewrite createApi_headers. destruct (getToken options) as [f |]; simpl; split.
  - discriminate.
  - intros _. right. left. reflexivity.
  - intros [H | []]. discriminate.
  - intros H. contradiction.
Qed.

(** C4 (the code at the failing input). With a [getToken] that returns
    [null], [createApi] still attaches an [Authorization] header, whose value
    is the text "Bearer null". *)
Theorem createApi_null_token (url : string) (hook : option Callback) :
  headers (defaults (createApi {| baseURL := url;
                                  getToken := Some (fun _ => None);
                                  onUnauthorized := hook |})) =
  [("Content-Type", "application/json"); ("Authorization", "Bearer null")].
Proof. reflexivity. Qed.

Lemma createApi_baseURL (options : CreateApiOptions) :
  defaults_baseURL (defaults (createApi options)) = baseURL options.
Proof. reflexivity. Qed.

(** ** The response interceptor *)

Lemma strictEqNum_true (v : JsVal) (n : Z) : strictEqNum v n = true <-> v = VNum n.
Proof.
  destruct v; simpl; split; try discriminate.
  - intros H. apply Z.eqb_eq in H. subst. reflexivity.
  - intros H. injection H as ->. apply Z.eqb_refl.
Qed.

Lemma calls_snoc (hook : Callback) (t : Trace) :
  calls hook (t ++ [Called hook]) = S (calls hook t).
Proof.
  induction t as [| [g | w] t IH]; simpl.
  - rewrite String.eqb_refl. reflexivity.
  - rewrite IH. lia.
  - exact IH.
Qed.

(** ** The retry loop *)

Lemma retryLoop_spec (cfg : IAxiosRetryConfig) (tries : nat -> Completion AxiosResponse) :
  forall remaining retryCount,
    let run := retryLoop cfg remaining retryCount tries in
    length (snd run) <= remaining /\
    fst run = tries (retryCount + length (snd run)) /\
    snd run =
      map (fun i => retryDelay cfg (Z.of_nat (retryCount + i))) (seq 1 (length (snd run))) /\
    (forall i, i < length (snd run) ->
       exists e, tries (retryCount + i) = Throw e /\ retryCondition cfg e = true) /\
    (forall e, fst run = Throw e ->
       length (snd run) = remaining \/ retryCondition cfg e = false).
Proof.
  assert (Hstop0 : forall n, tries n = tries (n + 0)) by (intros n; rewrite Nat.add_0_r; reflexivity).
  induction remaining as [| remaining IH]; intros retryCount; cbn zeta.
  - simpl. destruct (tries retryCount) as [response | error] eqn:Htry; simpl;
      (split; [lia | split; [rewrite <- Hstop0; congruence | split; [reflexivity | split]]]).
    + intros i Hi. lia.
    + discriminate.
    + intros i Hi. lia.
    + intros e _. left. reflexivity.
  - simpl. destruct (tries retryCount) as [response | error] eqn:Htry.
    + simpl. split; [lia | split; [rewrite <- Hstop0; congruence | split; [reflexivity | split]]].
      * intros i Hi. lia.
      * discriminate.
    + destruct (retryCondition cfg error) eqn:Hcond.
      * specialize (IH (S retryCount)). cbn zeta in IH.
        destruct (retryLoop cfg remaining (S retryCount) tries) as [outcome delays].
        cbn [fst snd length] in *. destruct IH as (Hlen & Hout & Hdel & Hall & Hstop).
        split; [lia | split; [| split; [| split]]].
        -- rewrite Hout. f_equal. lia.
        -- cbn [seq map]. f_equal.
           ++ do 2 f_equal. lia.
           ++ rewrite Hdel at 1.
              rewrite <- (seq_shift (length delays) 1), (map_map S).
              apply map_ext. intros i. do 2 f_equal. lia.
        -- intros [| i] Hi.
           ++ exists error. rewrite Nat.add_0_r. split; assumption.
           ++ destruct (Hall i ltac:(lia)) as (e & He & Hc). exists e.
              replace (retryCount + S i) with (S retryCount + i) by lia. split; assumption.
        -- intros e He. destruct (Hstop e He) as [H | H]; [left; lia | right; exact H].
      * simpl. split; [lia | split; [rewrite <- Hstop0; congruence | split; [reflexivity | split]]].
        -- intros i Hi. lia.
        -- intros e He. injection He as <-. right. exact Hcond.
Qed.

Lemma sendWithRetry_createApi (options : CreateApiOptions)
    (tries : nat -> Completion AxiosResponse) :
  sendWithRetry (createApi options) tries =
  retryLoop {| retries := 3;
               retryDelay := fun retryCount => (retryCount * 1000)%Z;
               retryCondition := fun error => isNetworkOrIdempotentRequestError error |}
            3 0 tries.
Proof. reflexivity. Qed.

Lemma createApi_interceptors_rejected (options : CreateApiOptions) (error : JsVal) (t : Trace) :
  runResponseInterceptors (responseInterceptors (createApi options)) (Throw error) t =
  (Throw error, t).
Proof. reflexivity. Qed.

Lemma createApi_interceptors_fulfilled (options : CreateApiOptions) (response : AxiosResponse)
    (t : Trace) :
  runResponseInterceptors (responseInterceptors (createApi options)) (Normal response) t =
  match bodyCode response with
  | Throw e => (Throw e, t)
  | Normal code =>
      if strictEqNum code 401 then
        match onUnauthorized options with
        | Some hook => (Normal response, t ++ [Called hook])
        | None => (Normal response, t)
        end
      else (Normal response, t)
  end.
Proof.
  unfold bodyCode. simpl.
  destruct (getProp (data response) "code") as [code | e]; [| reflexivity].
  destruct (strictEqNum code 401); [| reflexivity].
  destruct (onUnauthorized options); reflexivity.
Qed.

(** A request through the client of [createApi] makes the tries [retryLoop]
    makes; a rejection is passed on as it is; a final response passes the
    401 handler once per try made, the innermost request first. *)
Lemma requestLoop_createApi (options : CreateApiOptions) (cfg : IAxiosRetryConfig)
    (tries : nat -> Completion AxiosResponse) :
  forall remaining retryCount t,
    requestLoop (createApi options) cfg remaining retryCount tries t =
    match fst (retryLoop cfg remaining retryCount tries) with
    | Throw e => (Throw e, t)
    | Normal r =>
        match bodyCode r with
        | Throw e => (Throw e, t)
        | Normal code =>
            if strictEqNum code 401 then
              match onUnauthorized options with
              | Some hook =>
                  (Normal r,
                   t ++ repeat (Called hook)
                          (S (length (snd (retryLoop cfg remaining retryCount tries)))))
              | None => (Normal r, t)
              end
            else (Normal r, t)
        end
    end.
Proof.
  induction remaining as [| remaining IH]; intros retryCount t;
    cbn [requestLoop retryLoop].
  - destruct (tries retryCount) as [r | error]; cbn [fst snd length repeat].
    + apply createApi_interceptors_fulfilled.
    + apply createApi_interceptors_rejected.
  - destruct (tries retryCount) as [r | error]; cbn [fst snd length repeat].
    + apply createApi_interceptors_fulfilled.
    + destruct (retryCondition cfg error); [| apply createApi_interceptors_rejected].
      rewrite IH.
      destruct (retryLoop cfg remaining (S retryCount) tries) as [outcome delays].
      cbn [fst snd length]. destruct outcome as [r | e].
      * destruct (bodyCode r) as [code | e] eqn:Hcode.
        -- destruct (strictEqNum code 401) eqn:H401.
           ++ destruct (onUnauthorized options) as [hook |] eqn:Hhook.
              ** rewrite createApi_interceptors_fulfilled, Hcode, H401, Hhook.
                 rewrite <- app_assoc. do 2 f_equal.
                 change (Called hook :: repeat (Called hook) (length delays) ++ [Called hook]
                         = Called hook :: Called hook :: repeat (Called hook) (length delays)).
                 f_equal. symmetry. apply repeat_cons.
              ** rewrite createApi_interceptors_fulfilled, Hcode, H401, Hhook. reflexivity.
           ++ rewrite createApi_interceptors_fulfilled, Hcode, H401. reflexivity.
        -- apply createApi_interceptors_rejected.
      * apply createApi_interceptors_rejected.
Qed.

Lemma axios_request_createApi (options : CreateApiOptions)
    (tries : nat -> Completion AxiosResponse) (t : Trace) :
  axios_request (createApi options) tries t =
  match fst (sendWithRetry (createApi options) tries) with
  | Throw e => (Throw e, t)
  | Normal r =>
      match bodyCode r with
      | Throw e => (Throw e, t)
      | Normal code =>
          if strictEqNum code 401 then
            match onUnauthorized options with
            | Some hook =>
                (Normal r,
                 t ++ repeat (Called hook)
                        (S (length (snd (sendWithRetry (createApi options) tries)))))
            | None => (Normal r, t)
            end
          else (Normal r, t)
      end
  end.
Proof.
  rewrite sendWithRetry_createApi. unfold axios_request. cbn [createApi retryOptions
    interceptors_response_use axiosRetry retries].
  apply requestLoop_createApi.
Qed.

Lemma sendWithRetry_same_answer (options : CreateApiOptions) (outcome : Completion AxiosResponse) :
  fst (sendWithRetry (createApi options) (fun _ => outcome)) = outcome.
Proof.
  rewrite sendWithRetry_createApi.
  match goal with |- context [retryLoop ?c 3 0 ?f] =>
    destruct (retryLoop_spec c f 3 0) as (_ & Hout & _)
  end.
  exact Hout.
Qed.

Lemma deliver_fulfilled (options : CreateApiOptions) (response : AxiosResponse) (t : Trace) :
  validateStatus (status response) = true ->
  deliver (createApi options) response t =
  match bodyCode response with
  | Throw e => (Throw e, t)
  | Normal code =>
      if strictEqNum code 401 then
        match onUnauthorized options with
        | Some hook => (Normal response, t ++ [Called hook])
        | None => (Normal response, t)
        end
      else (Normal response, t)
  end.
Proof.
  intros Hok.
  assert (Hsettle : settle response = Normal response).
  { unfold settle. rewrite Hok, orb_true_r. reflexivity. }
  unfold deliver, axios_request.
  cbn [createApi retryOptions interceptors_response_use axiosRetry retries requestLoop].
  rewrite Hsettle. apply createApi_interceptors_fulfilled.
Qed.

Lemma deliver_rejected (options : CreateApiOptions) (response : AxiosResponse) (error : JsVal)
    (t : Trace) :
  settle response = Throw error ->
  deliver (createApi options) response t = (Throw error, t).
Proof.
  intros Hbad. unfold deliver.
  rewrite axios_request_createApi, sendWithRetry_same_answer, Hbad. reflexivity.
Qed.

(** C5 (the code at the failing input). The body [{ code: 401, ... }] sent
    with HTTP status 401 is delivered as a rejection that carries the
    response; whatever the options and the retry classifiers, the caller
    gets that rejection and no callback has run. *)
Theorem unauthorized_http_status_skips_hook (options : CreateApiOptions) (t : Trace) :
  bodyCode {| status := 401; data := unauthorizedBody |} = Normal (VNum 401) /\
  deliver (createApi options) {| status := 401; data := unauthorizedBody |} t =
  (Throw (AxiosError "Request failed with status code 401"
            (Some {| status := 401; data := unauthorizedBody |})), t).
Proof.
  split; [reflexivity |]. apply deliver_rejected. reflexivity.
Qed.

(** ** The singleton *)

Lemma initAll_initialized (optionss : list CreateApiOptions) (client : ApiClient) (t : Trace) :
  initAll optionss (Some client) t =
  (Some client, t ++ repeat alreadyInitialized (length optionss)).
Proof.
  revert t. induction optionss as [| options rest IH]; intros t; simpl.
  - rewrite app_nil_r. reflexivity.
  - rewrite IH, <- app_assoc. reflexivity.
Qed.

(** C6. The first [initApiClient] installs the client built from its
    options; a call made once a client is installed logs the warning and
    leaves the installed client as it is; so after any number of further
    calls the client of the first call, with its [baseURL], is the one in
    place, and each further call has logged one warning. *)
Theorem initApiClient_once :
  (forall options t,
     initApiClient options None t = (Some (createApiClient (createApi options)), t)) /\
  (forall options client t,
     initApiClient options (Some client) t = (Some client, t ++ [alreadyInitialized])) /\
  (forall first rest t,
     initAll (first :: rest) None t =
     (Some (createApiClient (createApi first)), t ++ repeat alreadyInitialized (length rest)) /\
     defaults_baseURL (defaults (createApi first)) = baseURL first).
Proof.
  split; [| split].
  - reflexivity.
  - reflexivity.
  - intros first rest t. split; [| reflexivity].
    cbn [initAll initApiClient]. apply initAll_initialized.
Qed.

Lemma accessAll_uninitialized (props : list string) :
  accessAll props None = (map (fun _ => Throw notInitialized) props, None).
Proof.
  induction props as [| prop rest IH]; simpl.
  - reflexivity.
  - rewrite IH. reflexivity.
Qed.

Lemma accessAll_initialized (props : list string) (client : ApiClient) :
  accessAll props (Some client) =
  (map (fun prop => Normal (Reflect_get client prop)) props, Some client).
Proof.
  induction props as [| prop rest IH]; simpl.
  - reflexivity.
  - rewrite IH. reflexivity.
Qed.

(** C7. While no client is installed, every property read on [request]
    throws the error that names [initApiClient()], the first read and every
    later one alike; once [initApiClient] has been called, every read
    returns the member of that name of the installed client. *)
Theorem request_guard :
  (forall prop,
     request_get prop None = (Throw notInitialized, None) /\
     messageOf notInitialized =
     VStr "API client has not been initialized. Please call initApiClient() first.") /\
  (forall props,
     accessAll props None = (map (fun _ => Throw notInitialized) props, None)) /\
  (forall options instance t props,
     exists client,
       fst (initApiClient options instance t) = Some client /\
       (instance = None -> client = createApiClient (createApi options)) /\
       accessAll props (fst (initApiClient options instance t)) =
       (map (fun prop => Normal (Reflect_get client prop)) props, Some client)).
Proof.
  split; [| split].
  - intros prop. split; reflexivity.
  - apply accessAll_uninitialized.
  - intros options [client |] t props; simpl.
    + exists client. repeat split.
      * discriminate.
      * apply accessAll_initialized.
    + eexists. repeat split. apply accessAll_initialized.
Qed.

(** ** Retry *)

(** C8. A request sent through the client of [createApi] is tried at most 4
    times (one try and up to 3 retries), the delays waited are the leading
    ones of 1000, 2000, 3000 ms, and the outcome surfaced is that of the last
    try.  When every try fails with a network-class error (whatever the
    method, so for [get], [put] and [delete] too) all 4 tries are made, with
    delays 1000, 2000, 3000, before the failure is surfaced.  A failure that
    is neither network-class nor an idempotent-method failure is not
    retried: no try follows it. *)
Theorem retry_policy (options : CreateApiOptions) (tries : nat -> Completion AxiosResponse) :
  length (snd (sendWithRetry (createApi options) tries)) <= 3 /\
  snd (sendWithRetry (createApi options) tries) =
    firstn (length (snd (sendWithRetry (createApi options) tries))) [1000; 2000; 3000]%Z /\
  fst (sendWithRetry (createApi options) tries) =
    tries (length (snd (sendWithRetry (createApi options) tries))) /\
  ((forall k, k <= 3 -> exists e, tries k = Throw e /\ isNetworkError e = true) ->
   sendWithRetry (createApi options) tries = (tries 3, [1000; 2000; 3000]%Z)) /\
  (forall k e,
     tries k = Throw e ->
     isNetworkError e = false -> isIdempotentRequestError e = false ->
     length (snd (sendWithRetry (createApi options) tries)) <= k).
Proof.
  rewrite sendWithRetry_createApi.
  match goal with |- context [retryLoop ?c 3 0 tries] => set (cfg := c) end.
  pose proof (retryLoop_spec cfg tries 3 0) as Hspec. cbn zeta in Hspec.
  destruct (retryLoop cfg 3 0 tries) as [outcome delays] eqn:Hrun.
  cbn [fst snd] in *. destruct Hspec as (Hlen & Hout & Hdel & Hall & Hstop).
  cbn [Nat.add] in Hout, Hall.
  assert (Hprefix : delays = firstn (length delays) [1000; 2000; 3000]%Z).
  { rewrite Hdel at 1. clear - Hlen.
    destruct (length delays) as [| [| [| [| n]]]]; try reflexivity. lia. }
  split; [exact Hlen | split; [exact Hprefix | split; [exact Hout | split]]].
  - intros Hfail.
    assert (Hthree : length delays = 3).
    { destruct (Hfail (length delays) Hlen) as (e & He & Hnet).
      destruct (Hstop e) as [H | H].
      - rewrite Hout. exact He.
      - exact H.
      - unfold cfg in H. cbn [retryCondition] in H.
        unfold isNetworkOrIdempotentRequestError in H. rewrite Hnet in H. discriminate. }
    rewrite Hprefix, Hout, Hthree. reflexivity.
  - intros k e He Hnet Hidem.
    destruct (Nat.le_gt_cases (length delays) k) as [Hle | Hgt]; [exact Hle |].
    destruct (Hall k Hgt) as (e' & He' & Hcond).
    rewrite He in He'. injection He' as <-.
    unfold cfg in Hcond. cbn [retryCondition] in Hcond.
    unfold isNetworkOrIdempotentRequestError in Hcond.
    rewrite Hnet, Hidem in Hcond. discriminate.
Qed.

(** ** Further properties of the wrapper *)

Lemma raw_unfold (api : AxiosInstance) (verb : Verb) (url : string) (body config : JsVal) :
  raw (createApiClient api) verb url body config =
  match dispatch api verb url (sentBody verb body) config with
  | Normal response => Normal (data response)
  | Throw error => Throw error
  end.
Proof.
  destruct verb; cbn [raw createApiClient withoutBaseResponse raw_get raw_post raw_put
                      raw_delete raw_patch sentBody];
    unfold getWithoutBaseResponse, postWithoutBaseResponse, putWithoutBaseResponse,
      deleteWithoutBaseResponse, patchWithoutBaseResponse;
    cbn [bind ret Monad_Completion];
    match goal with |- context [dispatch ?a ?v ?u ?b ?c] => destruct (dispatch a v u b c) end;
    reflexivity.
Qed.

(** X1. For every verb the enveloped method is the raw method with its
    rejection handed to [handleError]: the two resolve to the same value
    whenever the raw one resolves, and where the raw one rejects with [e] the
    enveloped one answers [handleError e]. *)
Theorem enveloped_is_raw_caught (api : AxiosInstance) (verb : Verb) (url : string)
    (body config : JsVal) :
  enveloped (createApiClient api) verb url body config =
  catch (raw (createApiClient api) verb url body config) (fun error => handleError error).
Proof.
  rewrite enveloped_unfold, raw_unfold.
  destruct (dispatch api verb url (sentBody verb body) config); reflexivity.
Qed.

Lemma AxiosError_parts (message : string) (response : AxiosResponse) :
  isAxiosError (AxiosError message (Some response)) = true /\
  responseBody (AxiosError message (Some response)) = data response /\
  responseStatus (AxiosError message (Some response)) = VNum (status response) /\
  messageOf (AxiosError message (Some response)) = VStr message.
Proof. repeat split. Qed.

(** X2. When the instance call fails with an axios error whose response has a
    truthy body (any Envelope-shaped body is one), every enveloped method
    resolves to that body: the caller receives what a success with the same
    body would have given. *)
Theorem enveloped_failure_returns_server_body (api : AxiosInstance) (verb : Verb)
    (url : string) (body config : JsVal) (message : string) (response : AxiosResponse) :
  dispatch api verb url (sentBody verb body) config =
    Throw (AxiosError message (Some response)) ->
  truthy (data response) = true ->
  enveloped (createApiClient api) verb url body config = Normal (data response).
Proof.
  intros Hfail Hbody. rewrite enveloped_unfold, Hfail.
  destruct (AxiosError_parts message response) as (Hax & Hdata & _ & _).
  rewrite <- Hdata. apply handleError_axios_body; [exact Hax |].
  rewrite Hdata. exact Hbody.
Qed.

(** X3. Through the client of [createApi] a response is never altered: what
    a request resolves to is the response of the last try made.  The only
    callback ever run is the configured [onUnauthorized], and only for a
    final response whose body [code] is 401: it then runs once for every
    try made, so once when the request was not retried and once more for
    each retry. *)
Theorem interceptor_runs_once_per_try (options : CreateApiOptions)
    (tries : nat -> Completion AxiosResponse) (t : Trace) :
  (forall r,
     fst (axios_request (createApi options) tries t) = Normal r ->
     tries (length (snd (sendWithRetry (createApi options) tries))) = Normal r) /\
  (forall r hook,
     fst (sendWithRetry (createApi options) tries) = Normal r ->
     bodyCode r = Normal (VNum 401) ->
     onUnauthorized options = Some hook ->
     axios_request (createApi options) tries t =
     (Normal r,
      t ++ repeat (Called hook) (S (length (snd (sendWithRetry (createApi options) tries)))))) /\
  (snd (axios_request (createApi options) tries t) = t \/
   exists r hook,
     fst (sendWithRetry (createApi options) tries) = Normal r /\
     bodyCode r = Normal (VNum 401) /\
     onUnauthorized options = Some hook).
Proof.
  rewrite axios_request_createApi.
  assert (Hlast : fst (sendWithRetry (createApi options) tries) =
                  tries (length (snd (sendWithRetry (createApi options) tries)))).
  { rewrite sendWithRetry_createApi.
    match goal with |- context [retryLoop ?c 3 0 tries] =>
      destruct (retryLoop_spec c tries 3 0) as (_ & Hout & _)
    end.
    exact Hout. }
  rewrite <- Hlast.
  destruct (fst (sendWithRetry (createApi options) tries)) as [r | e].
  - destruct (bodyCode r) as [code | e] eqn:Hcode.
    + destruct (strictEqNum code 401) eqn:H401.
      * apply strictEqNum_true in H401. subst code.
        destruct (onUnauthorized options) as [hook |].
        -- split; [intros r' Hr; exact Hr | split].
           ++ intros r' hook' Hr _ Hhook. injection Hr as <-. injection Hhook as <-.
              reflexivity.
           ++ right. exists r, hook. split; [reflexivity | split; [exact Hcode | reflexivity]].
        -- split; [intros r' Hr; exact Hr | split].
           ++ intros r' hook' _ _ Hhook. discriminate.
           ++ left. reflexivity.
      * split; [intros r' Hr; exact Hr | split].
        -- intros r' hook' Hr H401' _. injection Hr as <-.
           rewrite Hcode in H401'. injection H401' as ->. discriminate.
        -- left. reflexivity.
    + split; [discriminate | split].
      * intros r' hook' Hr H401' _. injection Hr as <-.
        rewrite Hcode in H401'. discriminate.
      * left. reflexivity.
  - split; [discriminate | split].
    + intros r' hook' Hr. discriminate.
    + left. reflexivity.
Qed.

(** X4. A response that resolves the request but whose body is [null] or
    [undefined] makes the interceptor's read of [response.data.code] throw:
    the request is rejected with a plain [Error] (no axios error), no
    callback runs, and [handleError] reports it with code 500. *)
Theorem interceptor_rejects_missing_body (options : CreateApiOptions)
    (response : AxiosResponse) (t : Trace) :
  validateStatus (status response) = true ->
  data response = VNull \/ data response = VUndefined ->
  exists e,
    deliver (createApi options) response t = (Throw e, t) /\
    isAxiosError e = false /\ instanceofError e = true /\
    handleError e = Normal (synthesized (messageOf e) (VNum 500)).
Proof.
  intros Hok Hbody. rewrite (deliver_fulfilled options response t Hok). unfold bodyCode.
  destruct Hbody as [-> | ->]; cbn [getProp]; eexists; repeat split.
Qed.

Lemma jsOr_truthy (a b : JsVal) : truthy b = true -> truthy (jsOr a b) = true.
Proof. unfold jsOr. intros Hb. destruct (truthy a) eqn:Ha; assumption. Qed.

(** X5. Whenever [handleError] does not return a server body, it returns the
    envelope it builds, whose [code] is never falsy (an absent, zero or NaN
    status becomes 500); for an error that is no axios error the [code] is
    500, and for an axios error the [msg] is never empty. *)
Theorem synthesized_code_truthy (error v : JsVal) :
  handleError error = Normal v ->
  isAxiosError error && truthy (responseBody error) = false ->
  exists msg code,
    v = synthesized msg code /\
    truthy code = true /\
    (isAxiosError error = false -> code = VNum 500) /\
    (isAxiosError error = true -> truthy msg = true).
Proof.
  intros Hv Hcase. destruct (isAxiosError error) eqn:Hax; cbn [andb] in Hcase.
  - rewrite (handleError_axios_no_body error Hax Hcase) in Hv. injection Hv as <-.
    eexists. eexists. split; [reflexivity | split; [| split]].
    + apply jsOr_truthy. reflexivity.
    + discriminate.
    + intros _. apply jsOr_truthy. reflexivity.
  - destruct (instanceofError error) eqn:Herr.
    + rewrite (handleError_generic error Hax Herr) in Hv. injection Hv as <-.
      eexists. eexists. split; [reflexivity | split; [reflexivity | split]].
      * reflexivity.
      * discriminate.
    + rewrite (handleError_unknown error Hax Herr) in Hv. injection Hv as <-.
      eexists. eexists. split; [reflexivity | split; [reflexivity | split]].
      * reflexivity.
      * discriminate.
Qed.

(** X6. A response that the library rejects (its status is neither 0 nor
    accepted) and whose body is falsy (an empty body, for one) is normalized
    to an envelope whose [code] is the HTTP status itself and whose [msg] is
    the transport message, which is never empty. *)
Theorem http_failure_without_body (response : AxiosResponse) :
  status response <> 0%Z ->
  validateStatus (status response) = false ->
  truthy (data response) = false ->
  exists error,
    settle response = Throw error /\
    handleError error = Normal (synthesized (messageOf error) (VNum (status response))) /\
    truthy (messageOf error) = true.
Proof.
  intros Hnonzero Hbad Hbody. unfold settle.
  apply Z.eqb_neq in Hnonzero. rewrite Hnonzero, Hbad. cbn [orb].
  eexists. split; [reflexivity |].
  match goal with |- context [AxiosError ?m (Some response)] => set (message := m) end.
  destruct (AxiosError_parts message response) as (Hax & Hdata & Hstatus & Hmessage).
  assert (Htruthy : truthy (VStr message) = true) by reflexivity.
  split.
  - rewrite (handleError_axios_no_body _ Hax) by (rewrite Hdata; exact Hbody).
    rewrite Hstatus, Hmessage. unfold jsOr. rewrite Htruthy. cbn [truthy].
    rewrite Hnonzero. reflexivity.
  - rewrite Hmessage. exact Htruthy.
Qed.

Lemma clientObject_literal (api : AxiosInstance) :
  clientObject api =
  [("get", MethodUrlConfig (get api));
   ("post", MethodUrlDataConfig (post api));
   ("put", MethodUrlDataConfig (put api));
   ("delete", MethodUrlConfig (delete api));
   ("patch", MethodUrlDataConfig (patch api));
   ("withoutBaseResponse", Namespace (withoutBaseResponse (createApiClient api)))].
Proof. reflexivity. Qed.

(** X7. The object [createApiClient] returns has exactly six own properties,
    in this order: [get], [post], [put], [delete], [patch] and
    [withoutBaseResponse]; reading any name from it agrees with
    [Reflect_get] on the client, and none of the five
    [...WithoutBaseResponse] names of the [methods] literal is a property of
    it. *)
Theorem clientObject_members (api : AxiosInstance) :
  map fst (clientObject api) =
    ["get"; "post"; "put"; "delete"; "patch"; "withoutBaseResponse"] /\
  (forall prop,
     member prop (clientObject api) =
     match Reflect_get (createApiClient api) prop with
     | NotOwn => None
     | m => Some m
     end) /\
  (forall prop,
     In prop ["getWithoutBaseResponse"; "postWithoutBaseResponse"; "putWithoutBaseResponse";
              "deleteWithoutBaseResponse"; "patchWithoutBaseResponse"] ->
     member prop (methods api) <> None /\ member prop (clientObject api) = None).
Proof.
  rewrite clientObject_literal. split; [reflexivity | split].
  - intros prop. unfold Reflect_get. cbn [member createApiClient client_get client_post
      client_put client_delete client_patch].
    repeat match goal with
           | |- context [String.eqb prop ?k] => destruct (String.eqb prop k)
           end; reflexivity.
  - intros prop Hin. cbn [In] in Hin.
    repeat (destruct Hin as [<- | Hin]; [split; [discriminate | reflexivity] |]).
    contradiction.
Qed.

(** X8. The default headers carry no name twice; [Authorization] is among
    them exactly when [getToken] is supplied, and when [getToken] returns the
    token [s] its value is "Bearer " followed by [s]. *)
Theorem createApi_headers_shape (options : CreateApiOptions) :
  NoDup (map fst (headers (defaults (createApi options)))) /\
  (In "Authorization" (map fst (headers (defaults (createApi options)))) <->
   getToken options <> None) /\
  (forall f s,
     getToken options = Some f -> f tt = Some s ->
     headers (defaults (createApi options)) =
     [("Content-Type", "application/json"); ("Authorization", String.append "Bearer " s)]).
Proof.
  split; [| split].
  - rewrite createApi_headers. destruct (getToken options) as [f |]; cbn [map fst].
    + constructor.
      * intros [H | []]. discriminate.
      * constructor; [intros [] | constructor].
    + constructor; [intros [] | constructor].
  - apply createApi_authorization_iff.
  - intros f s Hf Hs. rewrite createApi_headers, Hf, Hs. reflexivity.
Qed.

End Client.

(** * Concrete runs *)

Example handleError_null :
  handleError VNull = Normal (synthesized (VStr "未知错误") (VNum 500)).
Proof. reflexivity. Qed.

Example handleError_plain_string :
  handleError (VStr "boom") = Normal (synthesized (VStr "未知错误") (VNum 500)).
Proof. reflexivity. Qed.

Example handleError_generic_error :
  handleError (newError "boom") = Normal (synthesized (VStr "boom") (VNum 500)).
Proof. reflexivity. Qed.

Example handleError_status_without_body :
  handleError (AxiosError "Request failed with status code 404"
                 (Some {| status := 404; data := VStr "" |})) =
  Normal (synthesized (VStr "Request failed with status code 404") (VNum 404)).
Proof. reflexivity. Qed.

(** C1, counterexample.  A call answered with status 200 and the text body
    "pong" resolves to that text, and a call rejected with a 502 whose body
    is text resolves to that text: neither value has the Envelope shape. *)
Lemma enveloped_result_without_envelope_shape :
  enveloped (createApiClient (always (Normal pong)) (createApi withoutResponse never sampleOptions))
            GET "/ping" VUndefined VUndefined = Normal (VStr "pong") /\
  hasEnvelopeShape (VStr "pong") = false /\
  enveloped (createApiClient
               (always (Throw (AxiosError "Request failed with status code 502" (Some badGateway))))
               (createApi withoutResponse never sampleOptions))
            POST "/orders" VNull VUndefined = Normal (VStr "Bad Gateway") /\
  hasEnvelopeShape (VStr "Bad Gateway") = false.
Proof. repeat split. Qed.

(** C2, counterexample.  For an axios error that carries the server's own
    error envelope, the normalizer returns that envelope, whose [data] is
    not [null]. *)
Lemma handleError_returns_non_null_data :
  handleError (AxiosError "Request failed with status code 401"
                 (Some {| status := 401; data := tokenExpiredBody |})) =
  Normal tokenExpiredBody /\
  hasEnvelopeShape tokenExpiredBody = true /\
  isErrorEnvelope tokenExpiredBody = false /\
  field "data" tokenExpiredBody = VObj false [("reason", VStr "expired")].
Proof. repeat split. Qed.

(** C2, at [null]: the result is an error envelope. *)
Lemma handleError_total_envelope_witness :
  exists v, handleError VNull = Normal v /\ isErrorEnvelope v = true.
Proof.
  destruct (handleError_total_envelope VNull) as (v & Hv & _ & Henvelope).
  exists v. split; [exact Hv | apply Henvelope; reflexivity].
Defined.

(** C3 (the code at the failing input). An axios error whose response body
    is the text "Bad Gateway", which has no Envelope shape, is answered with
    that text and not with the synthesized envelope of status 502. *)
Theorem handleError_returns_shapeless_body :
  hasEnvelopeShape (data badGateway) = false /\
  handleError (AxiosError "Request failed with status code 502" (Some badGateway)) =
  Normal (VStr "Bad Gateway") /\
  handleError (AxiosError "Request failed with status code 502" (Some badGateway)) <>
  Normal (synthesized (VStr "Request failed with status code 502") (VNum 502)).
Proof. repeat split. discriminate. Qed.

(** The body [{ code: 401, ... }] with HTTP status 200, not retried: the
    callback runs once and the response is passed on. *)
Example unauthorized_body_with_status_200 :
  deliver (createApi withoutResponse never sampleOptions)
          {| status := 200; data := unauthorizedBody |} [] =
  (Normal {| status := 200; data := unauthorizedBody |}, [Called "logout"]).
Proof. reflexivity. Qed.

(** X3, at a request whose first try finds the connection refused and whose
    second try is answered 200 with the body [{ code: 401, ... }]: the
    callback has run twice. *)
Lemma interceptor_runs_once_per_try_witness :
  axios_request (createApi withoutResponse never sampleOptions)
    (fun k => match k with
              | O => Throw networkDown
              | S _ => Normal {| status := 200; data := unauthorizedBody |}
              end) [] =
  (Normal {| status := 200; data := unauthorizedBody |}, [Called "logout"; Called "logout"]).
Proof.
  exact (proj1 (proj2 (interceptor_runs_once_per_try withoutResponse never sampleOptions
                         (fun k => match k with
                                   | O => Throw networkDown
                                   | S _ => Normal {| status := 200; data := unauthorizedBody |}
                                   end) []))
           {| status := 200; data := unauthorizedBody |} "logout" eq_refl eq_refl eq_refl).
Defined.

(** C8, at a connection that is refused on every try. *)
Lemma retry_policy_witness :
  sendWithRetry (createApi withoutResponse never sampleOptions) (fun _ => Throw networkDown) =
  (Throw networkDown, [1000; 2000; 3000]%Z).
Proof.
  apply (proj1 (proj2 (proj2 (proj2 (retry_policy withoutResponse never sampleOptions
                                       (fun _ => Throw networkDown)))))).
  intros k _. exists networkDown. split; reflexivity.
Defined.

(** C10, at a text body: it is returned as it is. *)
Lemma enveloped_returns_body_unvalidated_witness :
  always (Normal pong) (createApi withoutResponse never sampleOptions)
         POST "/ping" (sentBody POST VNull) VUndefined = Normal pong /\
  enveloped (createApiClient (always (Normal pong))
               (createApi withoutResponse never sampleOptions))
            POST "/ping" VNull VUndefined = Normal (VStr "pong").
Proof.
  split; [reflexivity |].
  exact (enveloped_returns_body_unvalidated (always (Normal pong))
           (createApi withoutResponse never sampleOptions) POST "/ping" VNull VUndefined
           pong eq_refl).
Defined.

(** X2, at a 401 answered with the server's own envelope. *)
Lemma enveloped_failure_returns_server_body_witness :
  enveloped (createApiClient
               (always (Throw (AxiosError "Request failed with status code 401"
                                 (Some {| status := 401; data := tokenExpiredBody |}))))
               (createApi withoutResponse never sampleOptions))
            GET "/me" VUndefined VUndefined = Normal tokenExpiredBody.
Proof.
  exact (enveloped_failure_returns_server_body
           (always (Throw (AxiosError "Request failed with status code 401"
                             (Some {| status := 401; data := tokenExpiredBody |}))))
           (createApi withoutResponse never sampleOptions) GET "/me" VUndefined VUndefined
           "Request failed with status code 401"
           {| status := 401; data := tokenExpiredBody |} eq_refl eq_refl).
Defined.

(** X4, at status 200 with the body [null]. *)
Lemma interceptor_rejects_missing_body_witness :
  exists e,
    deliver (createApi withoutResponse never sampleOptions)
            {| status := 200; data := VNull |} [] = (Throw e, []) /\
    handleError e = Normal (synthesized (messageOf e) (VNum 500)).
Proof.
  destruct (interceptor_rejects_missing_body withoutResponse never sampleOptions
              {| status := 200; data := VNull |} [] eq_refl (or_introl eq_refl))
    as (e & Hthrown & _ & _ & Hnormalized).
  exists e. split; [exact Hthrown | exact Hnormalized].
Defined.

(** X5, at a refused connection: the code is 500. *)
Lemma synthesized_code_truthy_witness :
  exists msg code,
    synthesized (VStr "Network Error") (VNum 500) = synthesized msg code /\
    truthy code = true.
Proof.
  destruct (synthesized_code_truthy networkDown
              (synthesized (VStr "Network Error") (VNum 500)) eq_refl eq_refl)
    as (msg & code & Hv & Hcode & _).
  exists msg, code. split; [exact Hv | exact Hcode].
Defined.

(** X6, at a 404 with an empty body: the code is 404. *)
Lemma http_failure_without_body_witness :
  exists error,
    settle {| status := 404; data := VStr "" |} = Throw error /\
    handleError error = Normal (synthesized (messageOf error) (VNum 404)).
Proof.
  destruct (http_failure_without_body {| status := 404; data := VStr "" |}
              ltac:(discriminate) eq_refl eq_refl)
    as (error & Hsettle & Hnormalized & _).
  exists error. split; [exact Hsettle | exact Hnormalized].
Defined.
